(** * The phrase-card backend of [app.py]: prompt builder and response normalizer

    A shallow embedding of the two pieces of logic of [src/app.py]:
    [build_prompt] (lines 130-171) and the part of [extract_keywords] that
    turns the text returned by the remote model into the list [keywords]
    (lines 209-247).

    Python's [str] is a sequence of Unicode code points, and the code uses
    it that way ([strip], [lstrip] with a character set, slicing by code
    point), so a [str] is a list of code points here, not a list of bytes. *)

From Stdlib Require Import List NArith ZArith Bool Lia String Ascii.
From Stdlib Require Import DecimalString.
Import ListNotations.

Set Implicit Arguments.
Open Scope N_scope.
Open Scope list_scope.

(** ** Python strings *)

Definition char := N.
Definition str := list char.

Definition LF : char := 10.
Definition CR : char := 13.
Definition DQUOTE : char := 34.
Definition APOS : char := 39.
Definition BACKSLASH : char := 92.

Definition str_eqb (a b : str) : bool :=
  if list_eq_dec N.eq_dec a b then true else false.


(** Literals of the source are written as UTF-8 text and decoded once.
    [q] reads an apostrophe as the double quote, for JSON text. *)
Module Utf8.

Definition cont (b : N) : N := N.land b 63.

Fixpoint decode (bs : list N) : str :=
  match bs with
  | [] => []
  | b0 :: r0 =>
    if b0 <? 128 then b0 :: decode r0
    else if b0 <? 224 then
      match r0 with
      | b1 :: r1 => (N.shiftl (N.land b0 31) 6 + cont b1) :: decode r1
      | _ => []
      end
    else if b0 <? 240 then
      match r0 with
      | b1 :: b2 :: r2 =>
        (N.shiftl (N.land b0 15) 12 + N.shiftl (cont b1) 6 + cont b2)
          :: decode r2
      | _ => []
      end
    else
      match r0 with
      | b1 :: b2 :: b3 :: r3 =>
        (N.shiftl (N.land b0 7) 18 + N.shiftl (cont b1) 12
         + N.shiftl (cont b2) 6 + cont b3) :: decode r3
      | _ => []
      end
  end.

Definition bytes_of (s : string) : list N :=
  map (fun b => N.of_nat (nat_of_ascii b)) (list_ascii_of_string s).

End Utf8.

Definition u (s : string) : str := Utf8.decode (Utf8.bytes_of s).

Definition q (s : string) : str :=
  map (fun c => if c =? APOS then DQUOTE else c) (u s).

(** [ch.isspace()] for one code point, as CPython's
    [_PyUnicode_IsWhitespace] has it. *)
Definition isspace (c : char) : bool :=
  ((9 <=? c) && (c <=? 13)) || ((28 <=? c) && (c <=? 32))
  || (c =? 133) || (c =? 160) || (c =? 5760)
  || ((8192 <=? c) && (c <=? 8202))
  || (c =? 8232) || (c =? 8233) || (c =? 8239) || (c =? 8287)
  || (c =? 12288).

Fixpoint dropwhile (p : char -> bool) (s : str) : str :=
  match s with
  | [] => []
  | c :: s' => if p c then dropwhile p s' else s
  end.

(** [s.lstrip()], [s.rstrip()], [s.strip()] *)
Definition lstrip (s : str) : str := dropwhile isspace s.
Definition rstrip (s : str) : str := rev (dropwhile isspace (rev s)).
Definition strip (s : str) : str := rstrip (lstrip s).

(** [s.lstrip(chars)] *)
Definition lstrip_chars (chars : str) (s : str) : str :=
  dropwhile (fun c => existsb (N.eqb c) chars) s.

(** [s.startswith(p)] *)
Fixpoint startswith (p s : str) : bool :=
  match p, s with
  | [], _ => true
  | a :: p', b :: s' => (a =? b) && startswith p' s'
  | _ :: _, [] => false
  end.

(** [p in s] for a non-empty [p] *)
Fixpoint contains (p s : str) : bool :=
  startswith p s ||
  match s with
  | [] => false
  | _ :: s' => contains p s'
  end.

(** [s.split(sep, 1)] for a one-character [sep]: [None] when [sep] does
    not occur (the list has one element), else the two parts. *)
Fixpoint split1 (sep : char) (s : str) : option (str * str) :=
  match s with
  | [] => None
  | c :: s' =>
    if c =? sep then Some ([], s')
    else match split1 sep s' with
         | Some (a, b) => Some (c :: a, b)
         | None => None
         end
  end.

(** [s.rsplit(sep, 1)[0]]: what precedes the last occurrence of [sep],
    and [s] itself when there is none. *)
Fixpoint before_last (sep s : str) : option str :=
  match s with
  | [] => None
  | c :: s' =>
    match before_last sep s' with
    | Some h => Some (c :: h)
    | None => if startswith sep s then Some [] else None
    end
  end.

Definition rsplit1_head (sep s : str) : str :=
  match before_last sep s with
  | Some h => h
  | None => s
  end.

(** The line boundaries of [str.splitlines]. *)
Definition is_linebreak (c : char) : bool :=
  ((10 <=? c) && (c <=? 13)) || ((28 <=? c) && (c <=? 30))
  || (c =? 133) || (c =? 8232) || (c =? 8233).

(** [s.splitlines()]: [cur] is the current line, reversed. *)
Fixpoint splitlines_from (cur : str) (s : str) : list str :=
  match s with
  | [] => match cur with [] => [] | _ => [rev cur] end
  | c :: s' =>
    if c =? CR then
      match s' with
      | d :: s'' =>
        if d =? LF then rev cur :: splitlines_from [] s''
        else rev cur :: splitlines_from [] s'
      | [] => rev cur :: splitlines_from [] s'
      end
    else if is_linebreak c then rev cur :: splitlines_from [] s'
    else splitlines_from (c :: cur) s'
  end.

Definition splitlines (s : str) : list str := splitlines_from [] s.

(** [str(n)] for a Python [int] *)
Definition str_of_N (n : N) : str :=
  u (NilEmpty.string_of_uint (N.to_uint n)).

Definition str_of_int (z : Z) : str :=
  match z with
  | Zneg p => 45 :: str_of_N (Npos p)
  | _ => str_of_N (Z.to_N z)
  end.

(** ** Python values, as [json.loads] returns them *)

(** A [float] keeps the text of its literal: its value is a binary64
    number, which only [str] ever looks at (see [float_repr] below).
    A [dict] keeps its keys in insertion order. *)
#[local] Unset Elimination Schemes.
Inductive pyval : Type :=
| PNone
| PBool (b : bool)
| PInt (z : Z)
| PFloat (tok : str)
| PStr (s : str)
| PList (items : list pyval)
| PDict (d : list (str * pyval)).
#[local] Set Elimination Schemes.

(** [d.get(key)] *)
Fixpoint dict_lookup (A : Type) (d : list (str * A)) (key : str) : option A :=
  match d with
  | [] => None
  | (k, v) :: d' => if str_eqb k key then Some v else dict_lookup d' key
  end.

(** [d[key] = v]: a key already present keeps its place. *)
Fixpoint dict_set (A : Type) (d : list (str * A)) (key : str) (v : A)
  : list (str * A) :=
  match d with
  | [] => [(key, v)]
  | (k, w) :: d' =>
    if str_eqb k key then (k, v) :: d' else (k, w) :: dict_set d' key v
  end.

(** [d.get(key, default)] *)
Definition dict_get (A : Type) (d : list (str * A)) (key : str) (default : A) : A :=
  match dict_lookup d key with
  | Some v => v
  | None => default
  end.

(** ** [json.loads]

    The decoder of Python's [json] package, on a [str]: the JSON grammar
    with the four whitespace characters, the constants [NaN], [Infinity]
    and [-Infinity], strict strings (no raw control character), escaped
    surrogate pairs joined, and the last of duplicate keys kept. [None]
    stands for [json.JSONDecodeError], the one exception the decoder raises
    on a [str]; the interpreter's resource limits (recursion depth, the
    digit limit of [int]) are outside this model. *)

Inductive token : Type :=
| TLBrack | TRBrack | TLBrace | TRBrace | TComma | TColon
| TStr (s : str)
| TAtom (v : pyval).

Definition is_digit (c : char) : bool := (48 <=? c) && (c <=? 57).

Definition hexval (c : char) : option N :=
  if is_digit c then Some (c - 48)
  else if (97 <=? c) && (c <=? 102) then Some (c - 87)
  else if (65 <=? c) && (c <=? 70) then Some (c - 55)
  else None.

(** [int(s[pos+1:pos+5], 16)] of [_decode_uXXXX] *)
Definition hex4 (a b c d : char) : option N :=
  match hexval a, hexval b, hexval c, hexval d with
  | Some x, Some y, Some z, Some w => Some (((x * 16 + y) * 16 + z) * 16 + w)
  | _, _, _, _ => None
  end.

Definition is_high_surrogate (n : N) : bool := (55296 <=? n) && (n <=? 56319).
Definition is_low_surrogate (n : N) : bool := (56320 <=? n) && (n <=? 57343).

(** [0x10000 + (((uni - 0xd800) << 10) | (uni2 - 0xdc00))] *)
Definition join_surrogates (hi lo : N) : N :=
  65536 + N.lor (N.shiftl (hi - 55296) 10) (lo - 56320).

(** The table [BACKSLASH] of [json.decoder] *)
Definition simple_escape (c : char) : option char :=
  if c =? 34 then Some 34
  else if c =? 92 then Some 92
  else if c =? 47 then Some 47
  else if c =? 98 then Some 8
  else if c =? 102 then Some 12
  else if c =? 110 then Some 10
  else if c =? 114 then Some 13
  else if c =? 116 then Some 9
  else None.

Fixpoint span (p : char -> bool) (s : str) : str * str :=
  match s with
  | [] => ([], [])
  | c :: s' =>
    if p c then let (a, b) := span p s' in (c :: a, b) else ([], s)
  end.

Definition is_nil (A : Type) (l : list A) : bool :=
  match l with [] => true | _ => false end.

(** The exponent part [[eE][-+]?[0-9]+], to the end of the literal *)
Definition match_exponent (s : str) : bool :=
  match s with
  | e :: r =>
    ((e =? 101) || (e =? 69)) &&
    (let r' := match r with
               | sg :: r0 => if (sg =? 43) || (sg =? 45) then r0 else r
               | [] => r
               end in
     let (ds, rest) := span is_digit r' in
     negb (is_nil ds) && is_nil rest)
  | [] => false
  end.

Fixpoint digits_value (acc : N) (ds : str) : N :=
  match ds with
  | [] => acc
  | d :: ds' => digits_value (acc * 10 + (d - 48)) ds'
  end.

(** [NUMBER_RE] of [json.scanner], matched against a whole literal:
    an [int] when there is neither fraction nor exponent. *)
Definition match_number (w : str) : option pyval :=
  let (neg, w1) := match w with
                   | c :: r => if c =? 45 then (true, r) else (false, w)
                   | [] => (false, w)
                   end in
  let (ds, w2) := span is_digit w1 in
  match ds with
  | [] => None
  | d0 :: dr =>
    if (d0 =? 48) && negb (is_nil dr) then None
    else
      match w2 with
      | [] =>
        let n := Z.of_N (digits_value 0 ds) in
        Some (PInt (if neg then (- n)%Z else n))
      | c :: r =>
        if c =? 46 then
          let (fs, w3) := span is_digit r in
          if is_nil fs then None
          else if is_nil w3 || match_exponent w3 then Some (PFloat w)
          else None
        else if match_exponent w2 then Some (PFloat w)
        else None
      end
  end.

(** A literal that is neither a string nor a container *)
Definition atom_of_word (w : str) : option pyval :=
  if str_eqb w (u "null") then Some PNone
  else if str_eqb w (u "true") then Some (PBool true)
  else if str_eqb w (u "false") then Some (PBool false)
  else match match_number w with
       | Some v => Some v
       | None =>
         if str_eqb w (u "NaN") || str_eqb w (u "Infinity")
            || str_eqb w (u "-Infinity")
         then Some (PFloat w) else None
       end.

Inductive char_class : Type :=
| CSpace | CPunct (t : token) | CQuote | CWord.

Definition classify (c : char) : char_class :=
  if (c =? 32) || (c =? 9) || (c =? 10) || (c =? 13) then CSpace
  else if c =? 91 then CPunct TLBrack
  else if c =? 93 then CPunct TRBrack
  else if c =? 123 then CPunct TLBrace
  else if c =? 125 then CPunct TRBrace
  else if c =? 44 then CPunct TComma
  else if c =? 58 then CPunct TColon
  else if c =? DQUOTE then CQuote
  else CWord.

Inductive lex_mode : Type :=
| Normal
| InWord (w : str)     (* the literal read so far, reversed *)
| InStr (acc : str).   (* the string decoded so far, reversed *)

Definition emit (t : token) (r : option (list token)) : option (list token) :=
  match r with
  | Some ts => Some (t :: ts)
  | None => None
  end.

(** What is emitted when a mode other than [InStr] ends. *)
Definition flush (m : lex_mode) (r : option (list token)) : option (list token) :=
  match m with
  | InWord w =>
    match atom_of_word (rev w) with
    | Some v => emit (TAtom v) r
    | None => None
    end
  | _ => r
  end.

(** The scanner: literals and punctuation in [Normal] and [InWord], and
    [py_scanstring] in [InStr]. *)
Fixpoint lex (m : lex_mode) (s : str) {struct s} : option (list token) :=
  match s with
  | [] =>
    match m with
    | InStr _ => None
    | _ => flush m (Some [])
    end
  | c :: s1 =>
    match m with
    | InStr acc =>
      if c =? DQUOTE then emit (TStr (rev acc)) (lex Normal s1)
      else if c =? BACKSLASH then
        match s1 with
        | [] => None
        | e :: s2 =>
          if e =? 117 then
            match s2 with
            | h1 :: h2 :: h3 :: h4 :: s3 =>
              match hex4 h1 h2 h3 h4 with
              | None => None
              | Some uni =>
                if is_high_surrogate uni then
                  match s3 with
                  | b :: s4 =>
                    match s4 with
                    | v :: s5 =>
                      if (b =? BACKSLASH) && (v =? 117) then
                        match s5 with
                        | g1 :: g2 :: g3 :: g4 :: s6 =>
                          match hex4 g1 g2 g3 g4 with
                          | None => None
                          | Some uni2 =>
                            if is_low_surrogate uni2
                            then lex (InStr (join_surrogates uni uni2 :: acc)) s6
                            else lex (InStr (uni :: acc)) s3
                          end
                        | _ => None
                        end
                      else lex (InStr (uni :: acc)) s3
                    | [] => lex (InStr (uni :: acc)) s3
                    end
                  | [] => lex (InStr (uni :: acc)) s3
                  end
                else lex (InStr (uni :: acc)) s3
              end
            | _ => None
            end
          else
            match simple_escape e with
            | Some ch => lex (InStr (ch :: acc)) s2
            | None => None
            end
        end
      else if c <? 32 then None
      else lex (InStr (c :: acc)) s1
    | _ =>
      match classify c with
      | CSpace => flush m (lex Normal s1)
      | CPunct t => flush m (emit t (lex Normal s1))
      | CQuote => flush m (lex (InStr []) s1)
      | CWord =>
        match m with
        | InWord w => lex (InWord (c :: w)) s1
        | _ => lex (InWord [c]) s1
        end
      end
    end
  end.

(** The parser proper, over the tokens, with the containers being built
    on a stack. *)
Inductive frame : Type :=
| FList (done : list pyval)                       (* items so far, reversed *)
| FDict (done : list (str * pyval)) (key : str).  (* pairs so far, current key *)

Inductive pstate : Type :=
| WantValue (stk : list frame)
| AfterOpenList (stk : list frame)
| AfterOpenDict (stk : list frame)
| WantKey (d : list (str * pyval)) (stk : list frame)
| WantColon (d : list (str * pyval)) (key : str) (stk : list frame)
| HaveValue (v : pyval) (stk : list frame).

Definition want_value (stk : list frame) (t : token) : option pstate :=
  match t with
  | TAtom v => Some (HaveValue v stk)
  | TStr s => Some (HaveValue (PStr s) stk)
  | TLBrack => Some (AfterOpenList stk)
  | TLBrace => Some (AfterOpenDict stk)
  | _ => None
  end.

Definition pstep (st : pstate) (t : token) : option pstate :=
  match st with
  | WantValue stk => want_value stk t
  | AfterOpenList stk =>
    match t with
    | TRBrack => Some (HaveValue (PList []) stk)
    | _ => want_value (FList [] :: stk) t
    end
  | AfterOpenDict stk =>
    match t with
    | TRBrace => Some (HaveValue (PDict []) stk)
    | TStr k => Some (WantColon [] k stk)
    | _ => None
    end
  | WantKey d stk =>
    match t with
    | TStr k => Some (WantColon d k stk)
    | _ => None
    end
  | WantColon d k stk =>
    match t with
    | TColon => Some (WantValue (FDict d k :: stk))
    | _ => None
    end
  | HaveValue v stk =>
    match stk with
    | [] => None
    | FList done :: stk' =>
      match t with
      | TComma => Some (WantValue (FList (v :: done) :: stk'))
      | TRBrack => Some (HaveValue (PList (rev (v :: done))) stk')
      | _ => None
      end
    | FDict d k :: stk' =>
      match t with
      | TComma => Some (WantKey (dict_set d k v) stk')
      | TRBrace => Some (HaveValue (PDict (dict_set d k v)) stk')
      | _ => None
      end
    end
  end.

Fixpoint prun (st : pstate) (ts : list token) : option pyval :=
  match ts with
  | [] =>
    match st with
    | HaveValue v [] => Some v
    | _ => None
    end
  | t :: ts' =>
    match pstep st t with
    | Some st' => prun st' ts'
    | None => None
    end
  end.

Definition json_loads (s : str) : option pyval :=
  match lex Normal s with
  | Some ts => prun (WantValue []) ts
  | None => None
  end.

(** ** [json.dumps]

    The encoder of Python's [json] package on a list of cards, with the
    default separators [", "] and [": "]. With [ensure_ascii=False] a
    character is written as it is unless it is the quote, the backslash
    or a control character; with [ensure_ascii=True] (the default) every
    character outside [' '..'~'] is escaped too, one above [0xFFFF] as a
    surrogate pair. *)

Definition hexdigit (n : N) : char := if n <? 10 then 48 + n else 87 + n.

(** ['{0:04x}'.format(n)] *)
Definition hex4_of (n : N) : str :=
  [hexdigit (n / 4096 mod 16); hexdigit (n / 256 mod 16);
   hexdigit (n / 16 mod 16); hexdigit (n mod 16)].

Definition uescape (n : N) : str := BACKSLASH :: 117 :: hex4_of n.

(** The table [ESCAPE_DCT] of [json.encoder] *)
Definition short_escape (c : char) : option str :=
  if c =? 34 then Some [BACKSLASH; 34]
  else if c =? 92 then Some [BACKSLASH; 92]
  else if c =? 10 then Some [BACKSLASH; 110]
  else if c =? 13 then Some [BACKSLASH; 114]
  else if c =? 9 then Some [BACKSLASH; 116]
  else if c =? 12 then Some [BACKSLASH; 102]
  else if c =? 8 then Some [BACKSLASH; 98]
  else if c <? 32 then Some (uescape c)
  else None.

(** The replacement of one character in [py_encode_basestring] *)
Definition encode_char (c : char) : str :=
  match short_escape c with
  | Some e => e
  | None => [c]
  end.

(** The replacement of one character in [py_encode_basestring_ascii] *)
Definition encode_char_ascii (c : char) : str :=
  match short_escape c with
  | Some e => e
  | None =>
    if c <=? 126 then [c]
    else if c <? 65536 then uescape c
    else
      let n := c - 65536 in
      uescape (N.lor 55296 (N.land (N.shiftr n 10) 1023))
      ++ uescape (N.lor 56320 (N.land n 1023))
  end.

Definition encode_basestring (ensure_ascii : bool) (s : str) : str :=
  DQUOTE
    :: flat_map (if ensure_ascii then encode_char_ascii else encode_char) s
    ++ [DQUOTE].

(** ** Cards *)

Record Card : Type := mkCard { keyword : str; quote : str }.

Definition dumps_card (ensure_ascii : bool) (c : Card) : str :=
  q "{'keyword': " ++ encode_basestring ensure_ascii (keyword c)
  ++ q ", 'quote': " ++ encode_basestring ensure_ascii (quote c) ++ u "}".

Fixpoint join (sep : str) (l : list str) : str :=
  match l with
  | [] => []
  | [x] => x
  | x :: l' => x ++ sep ++ join sep l'
  end.

(** [json.dumps(keywords, ensure_ascii=...)] *)
Definition json_dumps (ensure_ascii : bool) (cards : list Card) : str :=
  u "[" ++ join (u ", ") (map (dumps_card ensure_ascii) cards) ++ u "]".

(** ** Exceptions, and the statements that append to [keywords] *)

Inductive exn : Type :=
| IndexError | AttributeError | KeyError | JSONDecodeError.

Inductive outcome (A : Type) : Type :=
| Ok (a : A)
| Raise (e : exn).
Arguments Raise {A} e.

(** A block of statements: it reads and updates the list [keywords] and
    either completes or raises; what was appended before an exception
    stays appended. *)
Definition M (A : Type) : Type := list Card -> outcome A * list Card.

Definition ret (A : Type) (a : A) : M A := fun ks => (Ok a, ks).
Definition raise (A : Type) (e : exn) : M A := fun ks => (Raise e, ks).
Arguments raise {A} e.

Definition bind (A B : Type) (m : M A) (f : A -> M B) : M B :=
  fun ks =>
    match m ks with
    | (Ok a, ks') => f a ks'
    | (Raise e, ks') => (Raise e, ks')
    end.

Declare Scope py_scope.
Delimit Scope py_scope with py.
Notation "x <- m ;; k" := (bind m (fun x => k))
  (at level 61, m at next level, right associativity) : py_scope.
Notation "m ;;; k" := (bind m (fun _ => k))
  (at level 61, right associativity) : py_scope.
Open Scope py_scope.

(** [keywords.append(c)] *)
Definition append (c : Card) : M unit := fun ks => (Ok tt, ks ++ [c]).

(** [for x in l: body(x)] *)
Fixpoint for_each (A : Type) (l : list A) (body : A -> M unit) : M unit :=
  match l with
  | [] => ret tt
  | x :: l' => body x ;;; for_each l' body
  end.

(** [try: body / except json.JSONDecodeError: handler] *)
Definition try_except_JSONDecodeError (body handler : M unit) : M unit :=
  fun ks =>
    match body ks with
    | (Raise JSONDecodeError, ks') => handler ks'
    | r => r
    end.

(** What the caller gets: the list [keywords] when the statements
    complete, the exception when they do not. *)
Definition keywords_of (r : outcome unit * list Card) : outcome (list Card) :=
  match r with
  | (Ok _, keywords) => Ok keywords
  | (Raise e, _) => Raise e
  end.

(** [x.strip()] on a value that need not be a [str]: only [str] has the
    method among the values [json.loads] returns. *)
Definition strip_method (v : pyval) : M str :=
  match v with
  | PStr s => ret (strip s)
  | _ => raise AttributeError
  end.

(** [json.loads(text)] as a statement *)
Definition loads (text : str) : M pyval :=
  match json_loads text with
  | Some v => ret v
  | None => raise JSONDecodeError
  end.

Definition FENCE : str := u "```".
Definition BULLETS : str := u "・-*".
Definition DOT : char := 46.

Definition nonempty (s : str) : bool := negb (is_nil s).

(** ** The phase table and [build_prompt] *)

Record PhaseConfig : Type := mkPhaseConfig {
  label : str;
  card_type : str;
  count_min : Z;
  count_max : Z;
  examples : list str;
  aim : str
}.

Definition cfg_saguru : PhaseConfig :=
  {| label := u "①さぐる：現状をさぐる";
     card_type := u "事実・観察・感情の「今こうなっている」カード";
     count_min := 6%Z;
     count_max := 10%Z;
     examples :=
       [u "毎日カバンが重くて、肩が痛くなることが多い。";
        u "授業で使わなかった教科書を、念のため持ってきている。";
        u "教室が暑すぎたり寒すぎたりして集中しにくい。"];
     aim :=
       u "観察欄・困りごと欄を補完する材料として、状況カードを多めに出す。"
       ++ u "評価や解決策は抑えめにし、事実と感じたことを見える化する。" |}.

Definition cfg_kizuku : PhaseConfig :=
  {| label := u "②きづく：本当の問題に気づく";
     card_type := u "解決したい『問題の核心』や『問い』を表すカード";
     count_min := 3%Z;
     count_max := 5%Z;
     examples :=
       [u "荷物が重くなる理由をきちんと整理できていないことが問題だ。";
        u "生徒が本当に必要な持ち物を自分で判断できていない。"];
     aim :=
       u "さぐるフェーズのカードを踏まえて、AIが問題候補をまとめ直す。"
       ++ u "生徒は『一番気になる問題』を選んでシートに一文で書く。"
       ++ u "カードは問いの文にして、次のひらめく・つくるの起点にする。" |}.

Definition cfg_hirameku : PhaseConfig :=
  {| label := u "③ひらめく：解決アイデアをひらめく";
     card_type := u "解決アイデアや『こんな工夫をしてみたい』カード";
     count_min := 8%Z;
     count_max := 12%Z;
     examples :=
       [u "曜日ごとに持ち物チェックリストをつくる。";
        u "ロッカーに置いておける教科書を学年で決める。";
        u "カバンの重さを1週間計測して、結果をポスターにまとめる。"];
     aim :=
       u "アイデア出し欄を広げる役割。"
       ++ u "似ていても視点が違えば残す。"
       ++ u "評価はまだせず、生徒が『面白い・実現しやすい』観点で選べるようにする。" |}.

Definition cfg_tsukuru : PhaseConfig :=
  {| label := u "④つくる：ペーパープロトタイプにまとめる";
     card_type := u "実際に形にするアイデアの要約カード＋具体化カード";
     count_min := 3%Z;
     count_max := 7%Z;
     examples :=
       [u "休み時間に自分の空間を作れる『安眠ムードBOX』をつくる。";
        u "机の上に置ける大きさにする。";
        u "箱の中は暗くして、音もできるだけ遮る。";
        u "軽くて持ち運びしやすい素材にする。"];
     aim :=
       u "ワークシートの『見た目／大きさ／機能／特徴』と対応させる。"
       ++ u "AIは要約と具体化の候補を出し、生徒はそれをヒントに自分の言葉と絵で書く。" |}.

Definition cfg_tamesu : PhaseConfig :=
  {| label := u "⑤ためす：ユーザーテストとフィードバック";
     card_type := u "良かったところ／もっと良くできそうなところ／次に取り組むこと";
     count_min := 4%Z;
     count_max := 6%Z;
     examples :=
       [u "手軽に自分の空間ができるのが良さそうと言われた。";
        u "BOXが大きくて置き場所に困るので、畳めるようにした方が良いと言われた。";
        u "板を小さくして折り畳みしやすい形を考える。"];
     aim :=
       u "フィードバックシートの3欄（良かった・もっと・次）を埋める材料。"
       ++ u "次のサイクルのさぐる・きづくに引き継ぐ学びのエッセンスとして少数精鋭にする。" |}.

Definition PHASE_CONFIG : list (str * PhaseConfig) :=
  [(u "saguru", cfg_saguru);
   (u "kizuku", cfg_kizuku);
   (u "hirameku", cfg_hirameku);
   (u "tsukuru", cfg_tsukuru);
   (u "tamesu", cfg_tamesu)].

(** [d[key]] *)
Definition subscript (A : Type) (d : list (str * A)) (key : str) : outcome A :=
  match dict_lookup d key with
  | Some v => Ok v
  | None => Raise KeyError
  end.

Definition nl : str := [LF].

(** The loop [for ex in examples: examples_text += ...] *)
Definition examples_text_of (exs : list str) : str :=
  fold_left (fun text ex => text ++ u "・" ++ ex ++ nl) exs [].

Definition render_prompt (cfg : PhaseConfig) (memo : str) : str :=
  let cmin := count_min cfg in
  let cmax := count_max cfg in
  let examples_text := examples_text_of (examples cfg) in
  u "あなたは日本の中高生の話し合いを支援するファシリテーターです。" ++ nl
  ++ u "今はデザイン思考のフェーズ「" ++ label cfg ++ u "」にいます。" ++ nl ++ nl
  ++ u "生徒たちの話し合いメモ（文字起こしを含む）から、"
  ++ u "このフェーズにふさわしい内容のフレーズカードを " ++ str_of_int cmin
  ++ u "〜" ++ str_of_int cmax ++ u " 個、日本語で生成してください。" ++ nl
  ++ u "今回ほしいカードの種類：" ++ card_type cfg ++ nl ++ nl
  ++ u "ねらい：" ++ aim cfg ++ nl ++ nl
  ++ u "【出力フォーマット】" ++ nl
  ++ u "- 必ず JSON 配列だけを出力する。" ++ nl
  ++ q "- 各要素は {'keyword': '短いキーワード', 'quote': '元の発話の一部'} の形にする。" ++ nl
  ++ u "- keyword は 20文字前後の短い常体の文（〜する、〜になる など）。" ++ nl
  ++ u "- quote は元の発話から15〜25文字程度をそのまま抜粋する。見つからなければ空文字にする。" ++ nl
  ++ u "- 丁寧語（〜です、〜ます）は使わず、子どもが自分のノートに書きそうな表現にする。" ++ nl
  ++ u "- 同じ意味の内容は1つにまとめる。" ++ nl
  ++ u "- JSON 以外の説明文やコメントは一切出力しない。" ++ nl ++ nl
  ++ u "【カードのイメージ例】" ++ nl
  ++ examples_text ++ nl
  ++ u "【元のメモ】" ++ nl
  ++ memo ++ nl.

Definition build_prompt (memo phase : str) : outcome str :=
  let cfg := match dict_lookup PHASE_CONFIG phase with
             | Some c => Ok c
             | None => subscript PHASE_CONFIG (u "saguru")
             end in
  match cfg with
  | Ok cfg => Ok (render_prompt cfg memo)
  | Raise e => Raise e
  end.

(** ** The response normalizer of [extract_keywords] *)

Section Normalizer.

(** Two facts of the interpreter that the code reaches only through
    [str(parsed)]: [float_repr tok] is [repr(float(tok))], the shortest
    decimal text of the binary64 number nearest to the literal, and
    [isprintable c] is [chr(c).isprintable()] for a code point above
    ASCII, a property of the Unicode database. *)
Variable float_repr : str -> str.
Variable isprintable : char -> bool.

Definition hex2_of (n : N) : str :=
  [hexdigit (n / 16 mod 16); hexdigit (n mod 16)].

Definition hex8_of (n : N) : str :=
  hex4_of (n / 65536) ++ hex4_of (n mod 65536).

(** One character of [repr(s)], inside the quote [qc] *)
Definition repr_char (qc : char) (c : char) : str :=
  if (c =? qc) || (c =? BACKSLASH) then [BACKSLASH; c]
  else if c =? 9 then [BACKSLASH; 116]
  else if c =? 10 then [BACKSLASH; 110]
  else if c =? 13 then [BACKSLASH; 114]
  else if (c <? 32) || (c =? 127) then BACKSLASH :: 120 :: hex2_of c
  else if c <? 127 then [c]
  else if isprintable c then [c]
  else if c <=? 255 then BACKSLASH :: 120 :: hex2_of c
  else if c <=? 65535 then BACKSLASH :: 117 :: hex4_of c
  else BACKSLASH :: 85 :: hex8_of c.

(** [repr(s)] for a [str]: double quotes only when [s] has an
    apostrophe and no double quote *)
Definition repr_str (s : str) : str :=
  let qc := if existsb (N.eqb APOS) s && negb (existsb (N.eqb DQUOTE) s)
            then DQUOTE else APOS in
  qc :: flat_map (repr_char qc) s ++ [qc].

(** [repr(v)] *)
Fixpoint py_repr (v : pyval) : str :=
  match v with
  | PNone => u "None"
  | PBool true => u "True"
  | PBool false => u "False"
  | PInt z => str_of_int z
  | PFloat tok => float_repr tok
  | PStr s => repr_str s
  | PList items => u "[" ++ join (u ", ") (map py_repr items) ++ u "]"
  | PDict d =>
    u "{"
    ++ join (u ", ")
         (map (fun kv : str * pyval =>
                 let (k, x) := kv in repr_str k ++ u ": " ++ py_repr x) d)
    ++ u "}"
  end.

(** [str(v)] *)
Definition py_str (v : pyval) : str :=
  match v with
  | PStr s => s
  | _ => py_repr v
  end.

(** Lines 213-217 *)
Definition unwrap_fence (text : str) : M str :=
  if startswith FENCE text then
    match split1 LF text with
    | Some (_, rest) => ret (rsplit1_head FENCE rest)
    | None => raise IndexError
    end
  else ret text.

(** Lines 222-228, the body of [for item in parsed] *)
Definition item_step (item : pyval) : M unit :=
  match item with
  | PDict d =>
    kw <- strip_method (dict_get d (u "keyword") (PStr [])) ;;
    qt <- strip_method (dict_get d (u "quote") (PStr [])) ;;
    if nonempty kw then append (mkCard kw qt) else ret tt
  | PStr s => append (mkCard (strip s) [])
  | _ => ret tt
  end.

(** Lines 220-236 *)
Definition structured (parsed : pyval) : M unit :=
  match parsed with
  | PList items => for_each items item_step
  | _ => append (mkCard (strip (py_str parsed)) [])
  end.

(** Lines 240-247, the body of [for line in raw_output.splitlines()] *)
Definition fallback_line (line : str) : M unit :=
  let line := strip line in
  if is_nil line then ret tt
  else
    let line := strip (lstrip_chars BULLETS line) in
    line <- (if existsb (N.eqb DOT) (firstn 3 line)
             then match split1 DOT line with
                  | Some (_, rest) => ret (strip rest)
                  | None => raise IndexError
                  end
             else ret line) ;;
    if nonempty line then append (mkCard line []) else ret tt.

Definition fallback (raw_output : str) : M unit :=
  for_each (splitlines raw_output) fallback_line.

(** Lines 212-236, the [try] block *)
Definition try_block (text : str) : M unit :=
  text <- unwrap_fence text ;;
  parsed <- loads text ;;
  structured parsed.

(** Lines 209-247: from [raw_output] to [keywords] *)
Definition extract_keywords (raw_output : str) : outcome (list Card) :=
  let keywords : list Card := [] in
  let text := strip raw_output in
  keywords_of
    (try_except_JSONDecodeError (try_block text) (fallback raw_output)
       keywords).

End Normalizer.

(** ** The specification's wording, for comparison with the code *)

(** The five phase identifiers of the specification *)
Definition known_phases : list str :=
  [u "saguru"; u "kizuku"; u "hirameku"; u "tsukuru"; u "tamesu"].




Definition is_list (v : pyval) : bool :=
  match v with PList _ => true | _ => false end.

(** An element that is an object or a string *)
Definition dict_or_str (v : pyval) : bool :=
  match v with PDict _ | PStr _ => true | _ => false end.

(** A field of an object element, the empty string when it is missing *)
Definition field (d : list (str * pyval)) (key : str) : pyval :=
  dict_get d key (PStr []).

(** The unwrap step in the specification's words: a text that begins with
    the delimiter and whose remainder, after the opening line, contains a
    closing delimiter is cut down to the interior; any other text is left
    as it is. *)
Definition unwrap_spec (text : str) : str :=
  if startswith FENCE text then
    match split1 LF text with
    | Some (_, rest) =>
      match before_last FENCE rest with
      | Some interior => interior
      | None => text
      end
    | None => text
    end
  else text.

(** What follows the first period of a line that has one *)
Definition after_first_period (s : str) : str :=
  tl (dropwhile (fun c => negb (c =? DOT)) s).

(** The keyword the fallback tier takes from one line, in the
    specification's words *)
Definition line_keyword (line : str) : option str :=
  let t := strip line in
  if is_nil t then None
  else
    let t := strip (lstrip_chars BULLETS t) in
    let t := if existsb (N.eqb DOT) (firstn 3 t)
             then strip (after_first_period t) else t in
    if is_nil t then None else Some t.

Fixpoint filter_map (A B : Type) (f : A -> option B) (l : list A) : list B :=
  match l with
  | [] => []
  | x :: l' =>
    match f x with
    | Some y => y :: filter_map f l'
    | None => filter_map f l'
    end
  end.

Definition fallback_cards (raw : str) : list Card :=
  map (fun k => mkCard k []) (filter_map line_keyword (splitlines raw)).

(** The cards of one list element: at most one, or the exception of a
    field that has no [strip] *)
Definition element_cards (item : pyval) : outcome (list Card) :=
  match item with
  | PDict d =>
    match field d (u "keyword"), field d (u "quote") with
    | PStr k, PStr qt =>
      Ok (if nonempty (strip k) then [mkCard (strip k) (strip qt)] else [])
    | _, _ => Raise AttributeError
    end
  | PStr s => Ok [mkCard (strip s) []]
  | _ => Ok []
  end.

(** The cards of the elements, one element after the other *)
Fixpoint cards_in_order (items : list pyval) : outcome (list Card) :=
  match items with
  | [] => Ok []
  | item :: items' =>
    match element_cards item with
    | Ok cs =>
      match cards_in_order items' with
      | Ok cs' => Ok (cs ++ cs')
      | Raise e => Raise e
      end
    | Raise e => Raise e
    end
  end.








(** * Properties *)

Unset Implicit Arguments.

(** ** Strings *)



Lemma str_eqb_neq (a b : str) : a <> b -> str_eqb a b = false.
Proof.
  intro H. unfold str_eqb. destruct (list_eq_dec N.eq_dec a b); congruence.
Qed.

Lemma is_nil_true (A : Type) (l : list A) : is_nil l = true <-> l = [].
Proof. destruct l; simpl; split; congruence. Qed.


(** ** The statements of the [try] block *)

Lemma for_each_app (A : Type) (body : A -> M unit) (xs ys : list A) ks :
  for_each (xs ++ ys) body ks = (for_each xs body ;;; for_each ys body) ks.
Proof.
  revert ks. induction xs as [|x xs IH]; intro ks; simpl.
  - reflexivity.
  - unfold bind in *. destruct (body x ks) as [[[]|e] ks1].
    + apply IH.
    + reflexivity.
Qed.

(** One element of the list appends the cards [element_cards] gives, or
    raises what it raises and appends nothing. *)
Lemma item_step_cards (item : pyval) (ks : list Card) :
  item_step item ks =
  match element_cards item with
  | Ok cs => (Ok tt, ks ++ cs)
  | Raise e => (Raise e, ks)
  end.
Proof.
  destruct item as [ | b | z | tok | s | items | d ]; simpl;
    try (unfold ret; rewrite app_nil_r; reflexivity).
  - reflexivity.
  - unfold field, bind.
    destruct (dict_get d (u "keyword") (PStr [])); simpl; try reflexivity.
    destruct (dict_get d (u "quote") (PStr [])); simpl; try reflexivity.
    destruct (nonempty (strip s)); unfold append, ret; simpl;
      [ reflexivity | rewrite app_nil_r; reflexivity ].
Qed.

Lemma element_cards_raises (item : pyval) (e : exn) :
  element_cards item = Raise e -> e = AttributeError.
Proof.
  destruct item as [ | b | z | tok | s | items | d ]; simpl; try discriminate.
  destruct (field d (u "keyword")); try (intro H; congruence);
    destruct (field d (u "quote")); intro H; congruence.
Qed.

Lemma cards_in_order_raises (items : list pyval) (e : exn) :
  cards_in_order items = Raise e -> e = AttributeError.
Proof.
  induction items as [|item items IH]; simpl; [discriminate|].
  destruct (element_cards item) as [cs|e'] eqn:E.
  - destruct (cards_in_order items) as [cs'|e'']; [discriminate|].
    intro H. apply IH. congruence.
  - intro H. apply element_cards_raises with item. congruence.
Qed.

(** The loop over the parsed list, against the cards of its elements in
    order. *)
Lemma for_each_item_step (items : list pyval) (ks : list Card) :
  match cards_in_order items with
  | Ok cs => for_each items item_step ks = (Ok tt, ks ++ cs)
  | Raise e => exists ks', for_each items item_step ks = (Raise e, ks')
  end.
Proof.
  revert ks. induction items as [|item items IH]; intro ks; simpl.
  - unfold ret. rewrite app_nil_r. reflexivity.
  - unfold bind. rewrite item_step_cards.
    destruct (element_cards item) as [cs|e].
    + specialize (IH (ks ++ cs)).
      destruct (cards_in_order items) as [cs'|e].
      * rewrite IH, app_assoc. reflexivity.
      * exact IH.
    + exists ks. reflexivity.
Qed.

Lemma keywords_of_for_each (items : list pyval) :
  keywords_of (for_each items item_step []) = cards_in_order items.
Proof.
  pose proof (for_each_item_step items []) as H.
  destruct (cards_in_order items) as [cs|e].
  - rewrite H. reflexivity.
  - destruct H as [ks' H]. rewrite H. reflexivity.
Qed.

Section NormalizerFacts.

Variable float_repr : str -> str.
Variable isprintable : char -> bool.

#[local] Abbreviation structured := (structured float_repr isprintable).
#[local] Abbreviation try_block := (try_block float_repr isprintable).
#[local] Abbreviation extract_keywords :=
  (extract_keywords float_repr isprintable).
#[local] Abbreviation py_str := (py_str float_repr isprintable).

(** The statements after the parse never raise [JSONDecodeError]. *)
Lemma structured_not_decode_error (v : pyval) (ks ks' : list Card) :
  structured v ks <> (Raise JSONDecodeError, ks').
Proof.
  destruct v as [ | b | z | tok | s | items | d ]; simpl;
    try (unfold append; discriminate).
  pose proof (for_each_item_step items ks) as H.
  destruct (cards_in_order items) as [cs|e] eqn:E.
  - rewrite H. discriminate.
  - destruct H as [ks1 H]. rewrite H.
    apply cards_in_order_raises in E. subst e. discriminate.
Qed.

(** The [try] statement when the unwrap step gives [text]. *)
Lemma try_block_unwrapped (raw_text text : str) (ks : list Card) :
  unwrap_fence raw_text ks = (Ok text, ks) ->
  try_block raw_text ks =
  match json_loads text with
  | Some v => structured v ks
  | None => (Raise JSONDecodeError, ks)
  end.
Proof.
  intro H. unfold try_block, bind. rewrite H. unfold loads.
  destruct (json_loads text); reflexivity.
Qed.

Lemma unwrap_fence_state (text : str) (ks : list Card) :
  snd (unwrap_fence text ks) = ks.
Proof.
  unfold unwrap_fence. destruct (startswith FENCE text); [|reflexivity].
  destruct (split1 LF text) as [[a b]|]; reflexivity.
Qed.

(** The unwrap step raises nothing but [IndexError]. *)
Lemma unwrap_fence_raises (text : str) (e : exn) (ks ks' : list Card) :
  unwrap_fence text ks = (Raise e, ks') -> e = IndexError /\ ks' = ks.
Proof.
  unfold unwrap_fence. destruct (startswith FENCE text).
  - destruct (split1 LF text) as [[a b]|]; unfold ret, raise; intro H;
      inversion H; split; reflexivity.
  - unfold ret. discriminate.
Qed.

(** The [try] statement with any handler at all in the place of the
    fallback loop: the handler runs exactly when the parse fails. *)
Lemma try_statement (raw_text : str) (handler : M unit) :
  try_except_JSONDecodeError (try_block raw_text) handler [] =
  match unwrap_fence raw_text [] with
  | (Ok text, _) =>
    match json_loads text with
    | Some v => structured v []
    | None => handler []
    end
  | (Raise e, ks) => (Raise e, ks)
  end.
Proof.
  unfold try_except_JSONDecodeError.
  destruct (unwrap_fence raw_text []) as [[text|e] ks] eqn:U.
  - pose proof (unwrap_fence_state raw_text []) as S. rewrite U in S.
    simpl in S. subst ks. rewrite (try_block_unwrapped raw_text text [] U).
    destruct (json_loads text) as [v|]; [|reflexivity].
    destruct (structured v []) as [[[]|e] ks] eqn:E; try reflexivity.
    destruct e; try reflexivity.
    exfalso. eapply structured_not_decode_error; eassumption.
  - destruct (unwrap_fence_raises raw_text e [] ks U) as [-> ->].
    unfold try_block, bind. rewrite U. reflexivity.
Qed.

(** C1 (the code does not do this). The normalizer raises on two kinds of
    text: a fence opener with no newline after it, where the subscript
    [[1]] of line 215 raises [IndexError], and a list with an object whose
    keyword is not a string, where [.strip()] of line 223 raises
    [AttributeError]. Neither is caught by the handler of line 237. *)
Theorem extract_keywords_raises :
  extract_keywords (u "```") = Raise IndexError
  /\ extract_keywords (u "```json") = Raise IndexError
  /\ extract_keywords (q "[{'keyword': 1}]") = Raise AttributeError
  /\ extract_keywords (q "[{'keyword': 'a', 'quote': null}]")
     = Raise AttributeError.
Proof. repeat split; vm_compute; reflexivity. Qed.

(** C2 (the code does not do this). A bare string element that is empty
    or blank becomes a card with an empty keyword (line 228 has no test
    like the one of line 225), and so does a blank string as the whole
    value (line 233). *)
Theorem empty_keyword_emitted :
  extract_keywords (q "[' ']") = Ok [mkCard [] []]
  /\ extract_keywords (q "['a', '', 'b']")
     = Ok [mkCard (u "a") []; mkCard [] []; mkCard (u "b") []]
  /\ extract_keywords (q "' '") = Ok [mkCard [] []].
Proof. repeat split; vm_compute; reflexivity. Qed.

(** C3. For every input, with [text] what the unwrap step leaves: when
    [text] parses, the result is that of the structured path, whatever
    handler stands in the [except] clause, also when the structured path
    appends no card; when [text] does not parse, the result is that of
    the handler, which is the fallback loop over the raw text. When the
    unwrap step raises, the handler does not run either. *)
Theorem structured_parse_first (raw : str) :
  (forall text v,
      unwrap_fence (strip raw) [] = (Ok text, []) ->
      json_loads text = Some v ->
      (forall handler,
          try_except_JSONDecodeError (try_block (strip raw)) handler []
          = structured v [])
      /\ extract_keywords raw = keywords_of (structured v []))
  /\ (forall text,
      unwrap_fence (strip raw) [] = (Ok text, []) ->
      json_loads text = Some (PList []) ->
      extract_keywords raw = Ok [])
  /\ (forall text,
      unwrap_fence (strip raw) [] = (Ok text, []) ->
      json_loads text = None ->
      (forall handler,
          try_except_JSONDecodeError (try_block (strip raw)) handler []
          = handler [])
      /\ extract_keywords raw = keywords_of (fallback raw []))
  /\ (forall e ks,
      unwrap_fence (strip raw) [] = (Raise e, ks) ->
      forall handler,
        try_except_JSONDecodeError (try_block (strip raw)) handler []
        = (Raise e, ks)).
Proof.
  unfold extract_keywords. repeat split; intros.
  - rewrite try_statement, H, H0. reflexivity.
  - rewrite try_statement, H, H0. reflexivity.
  - rewrite try_statement, H, H0. reflexivity.
  - rewrite try_statement, H, H0. reflexivity.
  - rewrite try_statement, H, H0. reflexivity.
  - rewrite try_statement, H. reflexivity.
Qed.

(** C6. An object element of the parsed list whose keyword and quote
    fields are strings, a missing field counting as the empty string,
    appends the card of the two trimmed values when the trimmed keyword
    is not empty, and nothing when it is; so for the two texts of the
    specification. *)
Theorem object_element_card :
  (forall d k qt ks,
      field d (u "keyword") = PStr k ->
      field d (u "quote") = PStr qt ->
      item_step (PDict d) ks =
      (Ok tt, if nonempty (strip k)
              then ks ++ [mkCard (strip k) (strip qt)] else ks))
  /\ (forall d key, dict_lookup d key = None -> field d key = PStr [])
  /\ extract_keywords (q "[{'keyword':'  a  ','quote':''}]")
     = Ok [mkCard (u "a") []]
  /\ extract_keywords (q "[{'quote':'b'}]") = Ok [].
Proof.
  split; [|split; [|split]].
  - intros d k qt ks Hk Hq. rewrite item_step_cards. simpl.
    rewrite Hk, Hq. destruct (nonempty (strip k)); [reflexivity|].
    rewrite app_nil_r. reflexivity.
  - intros d key H. unfold field, dict_get. rewrite H. reflexivity.
  - vm_compute. reflexivity.
  - vm_compute. reflexivity.
Qed.

(** C7. When the unwrapped text parses to a value that is not a list, the
    result is exactly one card: its keyword is [str(parsed)] trimmed and
    its quote is empty. *)
Theorem single_value_wrapped (raw text : str) (v : pyval) :
  unwrap_fence (strip raw) [] = (Ok text, []) ->
  json_loads text = Some v ->
  is_list v = false ->
  extract_keywords raw = Ok [mkCard (strip (py_str v)) []].
Proof.
  intros U P L. unfold extract_keywords. rewrite try_statement, U, P.
  destruct v; try discriminate; reflexivity.
Qed.

(** C10. When the unwrapped text parses to a list, an element that is
    neither an object nor a string appends nothing, and the result is the
    cards of the objects and strings, in the order of the elements. *)
Theorem other_elements_skipped (raw text : str) (items : list pyval) :
  unwrap_fence (strip raw) [] = (Ok text, []) ->
  json_loads text = Some (PList items) ->
  (forall item ks, dict_or_str item = false -> item_step item ks = (Ok tt, ks))
  /\ extract_keywords raw = cards_in_order items
  /\ cards_in_order items = cards_in_order (filter dict_or_str items).
Proof.
  intros U P. split; [|split].
  - intros item ks H. destruct item; try discriminate; reflexivity.
  - unfold extract_keywords. rewrite try_statement, U, P. simpl.
    apply keywords_of_for_each.
  - clear. induction items as [|item items IH]; [reflexivity|].
    destruct item; simpl; rewrite <- ?IH; try reflexivity.
    all: destruct (cards_in_order items); reflexivity.
Qed.

End NormalizerFacts.

(** ** The prompt builder *)

Lemma phases_of_table : map fst PHASE_CONFIG = known_phases.
Proof. reflexivity. Qed.

Lemma dict_lookup_absent (A : Type) (d : list (str * A)) (key : str) :
  ~ In key (map fst d) -> dict_lookup d key = None.
Proof.
  induction d as [|[k v] d IH]; simpl; intro H; [reflexivity|].
  rewrite str_eqb_neq by tauto. apply IH. tauto.
Qed.

Lemma saguru_configured :
  dict_lookup PHASE_CONFIG (u "saguru") = Some cfg_saguru.
Proof. vm_compute. reflexivity. Qed.

(** [build_prompt] completes for every phase. *)
Lemma build_prompt_total (memo phase : str) :
  exists cfg, build_prompt memo phase = Ok (render_prompt cfg memo).
Proof.
  unfold build_prompt.
  destruct (dict_lookup PHASE_CONFIG phase) as [c|].
  - exists c. reflexivity.
  - unfold subscript. rewrite saguru_configured. exists cfg_saguru.
    reflexivity.
Qed.

(** C8. For a phase that is none of the five identifiers, [build_prompt]
    completes, and with the very text it gives for ["saguru"]. *)
Theorem unknown_phase_is_saguru (memo phase : str) :
  ~ In phase known_phases ->
  build_prompt memo phase = build_prompt memo (u "saguru")
  /\ exists prompt, build_prompt memo phase = Ok prompt.
Proof.
  intro H. rewrite <- phases_of_table in H.
  apply dict_lookup_absent in H. split.
  - unfold build_prompt. rewrite H, saguru_configured. unfold subscript.
    rewrite saguru_configured. reflexivity.
  - destruct (build_prompt_total memo phase) as [cfg E]. eauto.
Qed.

Lemma unknown_phase_is_saguru_witness :
  ~ In (u "tameshi") known_phases
  /\ build_prompt (u "memo") (u "tameshi") = build_prompt (u "memo") (u "saguru").
Proof.
  assert (H : ~ In (u "tameshi") known_phases).
  { vm_compute. intros [H|[H|[H|[H|[H|[]]]]]]; discriminate H. }
  split; [exact H|]. exact (proj1 (unknown_phase_is_saguru (u "memo") (u "tameshi") H)).
Defined.

(** ** The unwrap step *)

Lemma startswith_app (p s : str) :
  startswith p s = true -> exists t, s = p ++ t.
Proof.
  revert s. induction p as [|a p IH]; intros s H.
  - exists s. reflexivity.
  - destruct s as [|b s]; simpl in H; [discriminate|].
    apply andb_true_iff in H. destruct H as [E H].
    apply N.eqb_eq in E. subst b. destruct (IH s H) as [t ->].
    exists t. reflexivity.
Qed.

Lemma split1_spec (sep : char) (s a b : str) :
  split1 sep s = Some (a, b) -> s = a ++ sep :: b /\ ~ In sep a.
Proof.
  revert a b. induction s as [|c s IH]; intros a b H; simpl in H.
  - discriminate.
  - destruct (c =? sep) eqn:E.
    + apply N.eqb_eq in E. inversion H; subst. split; [reflexivity|].
      intros [].
    + destruct (split1 sep s) as [[a' b']|]; [|discriminate].
      inversion H; subst. destruct (IH a' b eq_refl) as [-> N].
      split; [reflexivity|]. intros [->|I]; [|tauto].
      rewrite N.eqb_refl in E. discriminate.
Qed.

Lemma before_last_none (sep s : str) :
  sep <> [] -> (before_last sep s = None <-> contains sep s = false).
Proof.
  intro NE. induction s as [|c s IH]; simpl.
  - destruct sep; [congruence|]. simpl. tauto.
  - destruct (before_last sep s) as [h|].
    + split; [discriminate|]. intro H. apply orb_false_iff in H.
      destruct H as [_ H]. apply IH in H. discriminate.
    + assert (C : contains sep s = false) by (apply IH; reflexivity).
      rewrite C, orb_false_r.
      destruct sep as [|a p]; [congruence|].
      destruct (startswith (a :: p) (c :: s)); split; congruence.
Qed.

(** What [rsplit] cuts at is the last occurrence of the separator. *)
Lemma before_last_some (sep s h : str) :
  sep <> [] ->
  before_last sep s = Some h ->
  exists tail, s = h ++ sep ++ tail /\ contains sep (tl (sep ++ tail)) = false.
Proof.
  intro NE. revert h. induction s as [|c s IH]; intros h H; simpl in H.
  - discriminate.
  - destruct (before_last sep s) as [h'|] eqn:B.
    + inversion H; subst. destruct (IH h' eq_refl) as [tail [-> L]].
      exists tail. split; [reflexivity|exact L].
    + destruct (startswith sep (c :: s)) eqn:S; [|discriminate].
      inversion H; subst. destruct (startswith_app _ _ S) as [tail E].
      exists tail. split; [exact E|].
      rewrite <- E. simpl. apply before_last_none; assumption.
Qed.

Lemma FENCE_nonempty : FENCE <> [].
Proof. vm_compute. discriminate. Qed.

(** C4, as the code has it. For a trimmed text that begins with the
    delimiter and has a newline: the opening line, up to the first
    newline, is always removed; when what remains contains a closing
    delimiter, everything from the last one onward is removed too, and
    when it contains none, what remains is parsed whole. *)
Theorem unwrap_fence_spec (text line rest : str) :
  startswith FENCE text = true ->
  split1 LF text = Some (line, rest) ->
  text = line ++ LF :: rest /\ ~ In LF line
  /\ (contains FENCE rest = true ->
      exists interior tail,
        rest = interior ++ FENCE ++ tail
        /\ contains FENCE (tl (FENCE ++ tail)) = false
        /\ unwrap_fence text [] = (Ok interior, []))
  /\ (contains FENCE rest = false -> unwrap_fence text [] = (Ok rest, [])).
Proof.
  intros S P. destruct (split1_spec _ _ _ _ P) as [E N].
  split; [exact E|]. split; [exact N|].
  unfold unwrap_fence, rsplit1_head. rewrite S, P. split; intro C.
  - destruct (before_last FENCE rest) as [h|] eqn:B.
    + destruct (before_last_some _ _ _ FENCE_nonempty B) as [tail [R L]].
      exists h, tail. repeat split; assumption.
    + apply before_last_none in B; [congruence|exact FENCE_nonempty].
  - apply before_last_none in C; [|exact FENCE_nonempty]. rewrite C.
    reflexivity.
Qed.

Lemma unwrap_fence_spec_witness :
  let text := u "```json" ++ nl ++ q "['x','y']" ++ nl ++ u "```" in
  let rest := q "['x','y']" ++ nl ++ u "```" in
  startswith FENCE text = true
  /\ split1 LF text = Some (u "```json", rest)
  /\ exists interior tail,
      rest = interior ++ FENCE ++ tail
      /\ contains FENCE (tl (FENCE ++ tail)) = false
      /\ unwrap_fence text [] = (Ok interior, []).
Proof.
  split; [reflexivity|]. split; [reflexivity|].
  apply (unwrap_fence_spec
           (u "```json" ++ nl ++ q "['x','y']" ++ nl ++ u "```")
           (u "```json") (q "['x','y']" ++ nl ++ u "```")
           eq_refl eq_refl).
  reflexivity.
Defined.

(** C4, as the claim has it, fails: a text with an opening delimiter and
    no closing one is unwrapped all the same, its opening line removed. *)
Lemma unwrap_without_closing_fence :
  let text := u "```json" ++ nl ++ q "['x']" in
  strip text = text
  /\ startswith FENCE text = true
  /\ split1 LF text = Some (u "```json", q "['x']")
  /\ contains FENCE (q "['x']") = false
  /\ unwrap_spec text = text
  /\ unwrap_fence text [] = (Ok (q "['x']"), [])
  /\ unwrap_fence text [] <> (Ok (unwrap_spec text), []).
Proof. vm_compute. repeat split; discriminate. Qed.

(** ** The fallback tier *)

Lemma split1_after (sep : char) (s a b : str) :
  split1 sep s = Some (a, b) ->
  tl (dropwhile (fun c => negb (c =? sep)) s) = b.
Proof.
  revert a. induction s as [|c s IH]; intros a H; simpl in *.
  - discriminate.
  - destruct (c =? sep); simpl.
    + congruence.
    + destruct (split1 sep s) as [[a' b']|]; [|discriminate].
      inversion H; subst. apply (IH a'). reflexivity.
Qed.

Lemma split1_found (sep : char) (n : nat) (s : str) :
  existsb (N.eqb sep) (firstn n s) = true ->
  exists a b, split1 sep s = Some (a, b).
Proof.
  revert n. induction s as [|c s IH]; intros n H.
  - destruct n; discriminate.
  - destruct n as [|n]; [discriminate|]. simpl in *.
    rewrite (N.eqb_sym sep c) in H. destruct (c =? sep).
    + eauto.
    + destruct (IH n H) as [a [b ->]]. eauto.
Qed.

(** One line of the loop, against the specification's wording: the loop
    body never raises, and appends the keyword of the line if it has
    one. *)
Lemma fallback_line_cards (line : str) (ks : list Card) :
  fallback_line line ks =
  (Ok tt, ks ++ match line_keyword line with
                | Some k => [mkCard k []]
                | None => []
                end).
Proof.
  unfold fallback_line, line_keyword.
  destruct (is_nil (strip line)).
  - unfold ret. rewrite app_nil_r. reflexivity.
  - set (t := strip (lstrip_chars BULLETS (strip line))).
    unfold bind. destruct (existsb (N.eqb DOT) (firstn 3 t)) eqn:E.
    + destruct (split1_found _ _ _ E) as [a [b S]]. rewrite S.
      unfold after_first_period. rewrite (split1_after _ _ _ _ S).
      unfold ret, nonempty, append.
      destruct (is_nil (strip b)); simpl;
        [rewrite app_nil_r|]; reflexivity.
    + unfold ret, nonempty, append.
      destruct (is_nil t); simpl; [rewrite app_nil_r|]; reflexivity.
Qed.

Lemma fallback_loop (lines : list str) (ks : list Card) :
  for_each lines fallback_line ks =
  (Ok tt, ks ++ map (fun k => mkCard k []) (filter_map line_keyword lines)).
Proof.
  revert ks. induction lines as [|line lines IH]; intro ks; simpl.
  - unfold ret. rewrite app_nil_r. reflexivity.
  - unfold bind. rewrite fallback_line_cards, IH, <- app_assoc.
    destruct (line_keyword line); reflexivity.
Qed.

Lemma line_keyword_nonempty (line k : str) :
  line_keyword line = Some k -> k <> [].
Proof.
  unfold line_keyword. destruct (is_nil (strip line)); [discriminate|].
  match goal with
  | |- (if is_nil ?t then _ else _) = _ -> _ => destruct t
  end; simpl; intro H; inversion H; discriminate.
Qed.

Lemma fallback_cards_shape (raw : str) :
  Forall (fun c => keyword c <> [] /\ quote c = []) (fallback_cards raw).
Proof.
  unfold fallback_cards. induction (splitlines raw) as [|line lines IH].
  - constructor.
  - simpl. destruct (line_keyword line) as [k|] eqn:E; [|exact IH].
    constructor; [|exact IH]. split; [|reflexivity].
    exact (line_keyword_nonempty _ _ E).
Qed.

(** C5. When the unwrapped text does not parse, the result is made from
    the lines of the raw text: a line gives a card, with an empty quote,
    when it is not blank and something is left of it after the bullet
    markers and, if a period stands among its first three characters,
    everything up to the first period are removed and the rest is
    trimmed. *)
Theorem fallback_tier (float_repr : str -> str) (isprintable : char -> bool)
    (raw text : str) :
  unwrap_fence (strip raw) [] = (Ok text, []) ->
  json_loads text = None ->
  extract_keywords float_repr isprintable raw = Ok (fallback_cards raw)
  /\ Forall (fun c => keyword c <> [] /\ quote c = []) (fallback_cards raw).
Proof.
  intros U P. split; [|apply fallback_cards_shape].
  unfold extract_keywords. rewrite try_statement, U, P.
  unfold fallback. rewrite fallback_loop. reflexivity.
Qed.

Lemma fallback_tier_witness :
  extract_keywords (fun tok => tok) (fun _ => true)
    (u "・食べ物がない" ++ nl ++ u "・時間が足りない")
  = Ok [mkCard (u "食べ物がない") []; mkCard (u "時間が足りない") []]
  /\ extract_keywords (fun tok => tok) (fun _ => true)
       (u "```" ++ nl ++ u "1. foo" ++ nl ++ u "```")
     = Ok [mkCard (u "```") []; mkCard (u "foo") []; mkCard (u "```") []].
Proof.
  split.
  - exact (proj1 (fallback_tier (fun tok => tok) (fun _ => true)
                    (u "・食べ物がない" ++ nl ++ u "・時間が足りない")
                    (u "・食べ物がない" ++ nl ++ u "・時間が足りない")
                    eq_refl eq_refl)).
  - exact (proj1 (fallback_tier (fun tok => tok) (fun _ => true)
                    (u "```" ++ nl ++ u "1. foo" ++ nl ++ u "```")
                    (u "1. foo" ++ nl)
                    eq_refl eq_refl)).
Defined.

(** ** The structured path at the texts of the specification *)

Lemma structured_parse_first_witness :
  extract_keywords (fun tok => tok) (fun _ => true) (u "[]") = Ok []
  /\ extract_keywords (fun tok => tok) (fun _ => true) (u "[1, 2]") = Ok []
  /\ fallback_cards (u "[1, 2]") = [mkCard (u "[1, 2]") []].
Proof.
  split; [|split].
  - exact (proj1 (proj2 (structured_parse_first (fun tok => tok)
                           (fun _ => true) (u "[]")))
             (u "[]") eq_refl eq_refl).
  - exact (proj2 (proj1 (structured_parse_first (fun tok => tok)
                           (fun _ => true) (u "[1, 2]"))
                    (u "[1, 2]") (PList [PInt 1; PInt 2]) eq_refl eq_refl)).
  - reflexivity.
Defined.

Lemma object_element_card_witness :
  item_step (PDict [(u "quote", PStr (u " b ")); (u "keyword", PStr (u " a"))])
    [mkCard (u "z") []]
  = (Ok tt, [mkCard (u "z") []; mkCard (u "a") (u "b")]).
Proof.
  exact (proj1 (object_element_card (fun tok => tok) (fun _ => true))
           [(u "quote", PStr (u " b ")); (u "keyword", PStr (u " a"))]
           (u " a") (u " b ") [mkCard (u "z") []] eq_refl eq_refl).
Defined.

Lemma single_value_wrapped_witness :
  extract_keywords (fun tok => tok) (fun _ => true) (q "{'keyword':'solo'}")
  = Ok [mkCard (u "{'keyword': 'solo'}") []].
Proof.
  exact (single_value_wrapped (fun tok => tok) (fun _ => true)
           (q "{'keyword':'solo'}") (q "{'keyword':'solo'}")
           (PDict [(u "keyword", PStr (u "solo"))])
           eq_refl eq_refl eq_refl).
Defined.

Lemma other_elements_skipped_witness :
  extract_keywords (fun tok => tok) (fun _ => true)
    (q "[1, 'a', null, [2], {'keyword':'k'}, true, 2.5, 'b']")
  = Ok [mkCard (u "a") []; mkCard (u "k") []; mkCard (u "b") []].
Proof.
  exact (proj1 (proj2 (other_elements_skipped (fun tok => tok) (fun _ => true)
           (q "[1, 'a', null, [2], {'keyword':'k'}, true, 2.5, 'b']")
           (q "[1, 'a', null, [2], {'keyword':'k'}, true, 2.5, 'b']")
           [PInt 1; PStr (u "a"); PNone; PList [PInt 2];
            PDict [(u "keyword", PStr (u "k"))]; PBool true;
            PFloat (u "2.5"); PStr (u "b")]
           eq_refl eq_refl))).
Defined.

(** ** Decoding what [json.dumps] encodes *)






































(** ** What the normalizer returns is trimmed *)













(** ** Idempotence through serialization, on what the normalizer returns *)

(** C9 (the code does not do this). The list the normalizer returns for a
    list with a blank string holds a card with an empty keyword (line 228
    appends it without a test). The JSON text of that list is the same
    for either setting of [ensure_ascii], and normalizing it gives the
    empty list, not the list itself: the card is now an object, and line
    225 drops an object with an empty keyword. *)
Theorem roundtrip_loses_empty_keyword (float_repr : str -> str)
    (isprintable : char -> bool) :
  extract_keywords float_repr isprintable (q "[' ']") = Ok [mkCard [] []]
  /\ json_dumps true [mkCard [] []] = q "[{'keyword': '', 'quote': ''}]"
  /\ json_dumps false [mkCard [] []] = q "[{'keyword': '', 'quote': ''}]"
  /\ extract_keywords float_repr isprintable
       (q "[{'keyword': '', 'quote': ''}]") = Ok []
  /\ extract_keywords float_repr isprintable
       (q "[{'keyword': '', 'quote': ''}]")
     <> extract_keywords float_repr isprintable (q "[' ']").
Proof.
  repeat split; try (vm_compute; reflexivity).
  vm_compute. discriminate.
Qed.

(** ** Further properties of the normalizer *)

















(** ** Further properties of the prompt builder *)
















